(** * The ropes Conan recipe: dependency resolution

    A shallow embedding of [conanfile.py] (class [RopesConanFile]) and
    the properties of its [configure] / [requirements] / [generate] /
    [layout] methods.

    The recipe keeps its dependency table in the class attribute
    [conan_packages], a Python dict that [configure] updates in place.
    The dict is modelled as an insertion-ordered association list, the
    recipe methods as computations in a small state-and-exception monad
    over the shared table. *)

From Stdlib Require Import String List Permutation Lia.
Import ListNotations.
Local Open Scope string_scope.
Local Open Scope list_scope.

(** ** Python dictionaries with string keys and string values *)

Module PyDict.

(** Entries in insertion order; a dict never holds a key twice ([wf]). *)
Definition dict := list (string * string).

Definition keys (d : dict) : list string := map fst d.
Definition values (d : dict) : list string := map snd d.
Definition items (d : dict) : list (string * string) := d.

Definition wf (d : dict) : Prop := NoDup (keys d).

(** [d.get(k)] *)
Fixpoint get (k : string) (d : dict) : option string :=
  match d with
  | [] => None
  | (k', v) :: d' => if k' =? k then Some v else get k d'
  end.

(** [k in d] *)
Definition mem (k : string) (d : dict) : bool :=
  match get k d with Some _ => true | None => false end.

(** [d[k] = v]: an existing key keeps its position, a new one goes last. *)
Fixpoint setitem (k v : string) (d : dict) : dict :=
  match d with
  | [] => [(k, v)]
  | (k', v') :: d' =>
      if k' =? k then (k', v) :: d' else (k', v') :: setitem k v d'
  end.

(** [d.pop(k)] without a default: the removed value and the remaining
    dict, or [None] where Python raises [KeyError]. *)
Fixpoint pop (k : string) (d : dict) : option (string * dict) :=
  match d with
  | [] => None
  | (k', v) :: d' =>
      if k' =? k then Some (v, d')
      else match pop k d' with
           | Some (x, r) => Some (x, (k', v) :: r)
           | None => None
           end
  end.

(** The dict without the keys listed in [ks]. *)
Definition without (ks : list string) (d : dict) : dict :=
  filter (fun kv => negb (existsb (String.eqb (fst kv)) ks)) d.

End PyDict.

(** ** Exceptions, recipe state and the method monad *)

Inductive exn : Type :=
| KeyError (key : string).

Inductive outcome (A : Type) : Type :=
| Returned (a : A)
| Raised (e : exn).
Arguments Returned {A} a.
Arguments Raised {A} e.

(** What the recipe asks of Conan: [self.requires(ref)], the two
    generators' [generate()] and [cmake_layout(self)]. *)
Inductive call : Type :=
| requires (ref : string)
| CMakeToolchain_generate
| CMakeDeps_generate
| cmake_layout.

(** [packages] is the one dict object bound to the class attribute
    [conan_packages]: every method, and every invocation of a method,
    reads and updates this same object.  [calls] logs the calls made
    into Conan, oldest first. *)
Record state : Type := mkState {
  packages : PyDict.dict;
  calls : list call;
}.

(** A method body: it may update the state and either returns or
    raises; what it changed before raising stays changed. *)
Definition Py (A : Type) : Type := state -> state * outcome A.

Definition ret {A} (a : A) : Py A := fun s => (s, Returned a).

Definition bind {A B} (m : Py A) (k : A -> Py B) : Py B :=
  fun s =>
    match m s with
    | (s', Returned a) => k a s'
    | (s', Raised e) => (s', Raised e)
    end.

Notation "x <- m ;; k" := (bind m (fun x => k))
  (at level 61, m at next level, right associativity).
Notation "m ;; k" := (bind m (fun _ => k))
  (at level 61, right associativity).

(** [self.conan_packages[k] = v] *)
Definition packages_setitem (k v : string) : Py unit :=
  fun s => (mkState (PyDict.setitem k v (packages s)) (calls s), Returned tt).

(** [self.conan_packages.pop(k)] *)
Definition packages_pop (k : string) : Py string :=
  fun s =>
    match PyDict.pop k (packages s) with
    | Some (v, r) => (mkState r (calls s), Returned v)
    | None => (s, Raised (KeyError k))
    end.

(** A call into Conan, logged.  What Conan may answer to the call, such
    as refusing a requirement it has already registered, is not part of
    the recipe and not modelled. *)
Definition emit (c : call) : Py unit :=
  fun s => (mkState (packages s) (calls s ++ [c]), Returned tt).

(** [for x in l: body(x)] *)
Fixpoint for_each {A} (l : list A) (body : A -> Py unit) : Py unit :=
  match l with
  | [] => ret tt
  | x :: l' => body x ;; for_each l' body
  end.

(** ** The recipe *)

Definition opengl_sanity_check : string := "opengl/system".

(** The dict literal the class body binds to [conan_packages]. *)
Definition conan_packages : PyDict.dict :=
  [ ("fmt",        "fmt/10.2.1");
    ("mp-units",   "mp-units/2.2.1");
    ("scope-lite", "scope-lite/0.2.0");
    ("structopt",  "structopt/0.1.3");
    ("imgui",      "imgui/1.90.5");
    ("implot",     "implot/0.16");
    ("glfw",       "glfw/3.3.8");
    ("sdl",        "sdl/2.28.3");
    ("sdl_ttf",    "sdl_ttf/2.22.0") ].

(** The declared domain of each option. *)
Definition options : list (string * list string) :=
  [ ("check_opengl_compatibility", ["yes"; "no"]);
    ("opengl_source",              ["conan"; "system"]);
    ("sdl_source",                 ["conan"; "system"]) ].

Inductive pyvalue : Type :=
| PyStr (s : string)
| PyBool (b : bool).

Definition default_options : list (string * pyvalue) :=
  [ ("check_opengl_compatibility", PyStr "yes");
    ("opengl_source",              PyStr "conan");
    ("sdl_source",                 PyStr "conan");
    ("mp-units/*:std_format",      PyBool false) ].

(** [self.options] as [configure] reads it: the three options of the
    recipe itself, each compared to a string literal.  The record holds
    any strings; the values Conan lets through to [configure] are those
    of the declared domains ([valid], [configuration_pass]). *)
Record Options : Type := mkOptions {
  check_opengl_compatibility : string;
  opengl_source : string;
  sdl_source : string;
}.

Definition default_of (name : string) : string :=
  match find (fun e => fst e =? name) default_options with
  | Some (_, PyStr s) => s
  | _ => ""
  end.

(** The option set of a caller who overrides nothing. *)
Definition defaults : Options :=
  mkOptions (default_of "check_opengl_compatibility")
            (default_of "opengl_source")
            (default_of "sdl_source").

Definition domain_of (name : string) : list string :=
  match find (fun e => fst e =? name) options with
  | Some (_, vs) => vs
  | None => []
  end.

Definition in_domain (name value : string) : bool :=
  existsb (String.eqb value) (domain_of name).

(** Every option holds a value of its declared domain. *)
Definition valid (o : Options) : bool :=
  in_domain "check_opengl_compatibility" (check_opengl_compatibility o)
  && in_domain "opengl_source" (opengl_source o)
  && in_domain "sdl_source" (sdl_source o).

(** The three [if] statements of [configure], in source order. *)
Definition opengl_step (o : Options) : Py unit :=
  if check_opengl_compatibility o =? "yes"
  then packages_setitem "opengl" opengl_sanity_check
  else ret tt.

Definition sdl_step (o : Options) : Py unit :=
  if sdl_source o =? "system"
  then _ <- packages_pop "sdl" ;; _ <- packages_pop "sdl_ttf" ;; ret tt
  else ret tt.

Definition glfw_step (o : Options) : Py unit :=
  if opengl_source o =? "system"
  then _ <- packages_pop "glfw" ;; ret tt
  else ret tt.

Definition configure (o : Options) : Py unit :=
  opengl_step o ;; sdl_step o ;; glfw_step o.

Definition requirements : Py unit :=
  fun s =>
    for_each (PyDict.items (packages s))
             (fun '(name, ref) => emit (requires ref)) s.

Definition generate : Py unit :=
  emit CMakeToolchain_generate ;; emit CMakeDeps_generate.

Definition layout : Py unit :=
  emit cmake_layout.

(** The state right after the class body ran: the table is the literal
    and nothing has been asked of Conan yet. *)
Definition initial : state := mkState conan_packages [].

(** The three steps by name, to run them in an arbitrary order. *)
Inductive step : Type := InsertOpengl | RemoveSdl | RemoveGlfw.

Definition run_step (o : Options) (st : step) : Py unit :=
  match st with
  | InsertOpengl => opengl_step o
  | RemoveSdl => sdl_step o
  | RemoveGlfw => glfw_step o
  end.

Definition run_steps (o : Options) (l : list step) : Py unit :=
  for_each l (run_step o).

Definition source_order : list step := [InsertOpengl; RemoveSdl; RemoveGlfw].

Definition set_sdl_source (v : string) (o : Options) : Options :=
  mkOptions (check_opengl_compatibility o) (opengl_source o) v.

Definition set_opengl_source (v : string) (o : Options) : Options :=
  mkOptions (check_opengl_compatibility o) v (sdl_source o).

(** [d'] holds nothing but entries of [d] and, possibly, the sanity check. *)
Definition only_adds_opengl (d d' : PyDict.dict) : Prop :=
  forall k v, PyDict.get k d' = Some v ->
    PyDict.get k d = Some v \/ (k = "opengl" /\ v = opengl_sanity_check).

Definition step_eq_dec (a b : step) : {a = b} + {a <> b}.
Proof. decide equality. Defined.

(** A second invocation of [configure], run on the state the first one
    left behind, ends as the first did: same table, same outcome. *)
Definition second_call_repeats_first (o : Options) : Prop :=
  let first := configure o initial in
  configure o (fst first) = first.

(** [configure] returned normally. *)
Definition completes (r : state * outcome unit) : Prop :=
  snd r = Returned tt.

(** ** Closed forms used to describe [configure] on any table *)

(** The dict after [d.pop(k)] returned; the dict itself where it raises. *)
Definition delete (k : string) (d : PyDict.dict) : PyDict.dict :=
  match PyDict.pop k d with
  | Some (_, r) => r
  | None => d
  end.

(** What a step leaves of the table when it returns. *)
Definition step_effect (o : Options) (st : step) (d : PyDict.dict)
  : PyDict.dict :=
  match st with
  | InsertOpengl =>
      if check_opengl_compatibility o =? "yes"
      then PyDict.setitem "opengl" opengl_sanity_check d else d
  | RemoveSdl =>
      if sdl_source o =? "system"
      then delete "sdl_ttf" (delete "sdl" d) else d
  | RemoveGlfw =>
      if opengl_source o =? "system" then delete "glfw" d else d
  end.

(** The first key, in the order [configure] pops them, that the options
    ask to pop and the table lacks. *)
Definition first_missing (o : Options) (d : PyDict.dict) : option string :=
  if andb (sdl_source o =? "system") (negb (PyDict.mem "sdl" d))
  then Some "sdl"
  else if andb (sdl_source o =? "system") (negb (PyDict.mem "sdl_ttf" d))
  then Some "sdl_ttf"
  else if andb (opengl_source o =? "system") (negb (PyDict.mem "glfw" d))
  then Some "glfw"
  else None.

(** The keys the options ask to pop. *)
Definition removed_keys (o : Options) : list string :=
  (if sdl_source o =? "system" then ["sdl"; "sdl_ttf"] else [])
  ++ (if opengl_source o =? "system" then ["glfw"] else []).

(** The table without the popped keys, with the sanity check set when
    it is asked for. *)
Definition resolved_table (o : Options) (d : PyDict.dict) : PyDict.dict :=
  let kept := PyDict.without (removed_keys o) d in
  if check_opengl_compatibility o =? "yes"
  then PyDict.setitem "opengl" opengl_sanity_check kept
  else kept.

(** What a step needs of the table to return normally. *)
Definition step_ready (o : Options) (st : step) (d : PyDict.dict) : Prop :=
  match st with
  | InsertOpengl => True
  | RemoveSdl =>
      sdl_source o = "system" ->
      PyDict.mem "sdl" d = true /\ PyDict.mem "sdl_ttf" d = true
  | RemoveGlfw =>
      opengl_source o = "system" -> PyDict.mem "glfw" d = true
  end.

(** ** The options Conan hands to the recipe *)



(** ** Facts about dictionaries *)

Module PyDictFacts.
Import PyDict.

Lemma get_In k v d : get k d = Some v -> In (k, v) d.
Proof.
  induction d as [|[k' v'] d IH]; simpl; [discriminate|].
  destruct (String.eqb_spec k' k) as [->|_].
  - intros [= ->]. now left.
  - intros H. right. now apply IH.
Qed.

Lemma get_None_keys k d : get k d = None <-> ~ In k (keys d).
Proof.
  induction d as [|[k' v'] d IH]; simpl.
  - split; [intros _ []|reflexivity].
  - destruct (String.eqb_spec k' k) as [->|Hne].
    + split; [discriminate|]. intros H. exfalso. apply H. now left.
    + rewrite IH. split.
      * intros H [E|Hin]; [now apply Hne|now apply H].
      * intros H Hin. apply H. now right.
Qed.

Lemma In_get k v d : wf d -> In (k, v) d -> get k d = Some v.
Proof.
  unfold wf. induction d as [|[k' v'] d IH]; simpl; [intros _ []|].
  intros Hnd [E|Hin].
  - injection E as -> ->. now rewrite String.eqb_refl.
  - inversion Hnd as [|? ? Hnotin Hnd']; subst.
    destruct (String.eqb_spec k' k) as [->|_].
    + exfalso. apply Hnotin. change k with (fst (k, v)). now apply in_map.
    + now apply IH.
Qed.

Lemma get_setitem_same k v d : get k (setitem k v d) = Some v.
Proof.
  induction d as [|[k' v'] d IH]; simpl.
  - now rewrite String.eqb_refl.
  - destruct (String.eqb_spec k' k) as [->|Hne]; simpl.
    + now rewrite String.eqb_refl.
    + destruct (String.eqb_spec k' k); [contradiction|exact IH].
Qed.

Lemma get_setitem_other k k' v d :
  k' <> k -> get k' (setitem k v d) = get k' d.
Proof.
  intros Hne. induction d as [|[k0 v0] d IH]; simpl.
  - destruct (String.eqb_spec k k'); [congruence|reflexivity].
  - destruct (String.eqb_spec k0 k) as [->|Hne0]; simpl.
    + destruct (String.eqb_spec k k'); [congruence|reflexivity].
    + now rewrite IH.
Qed.

Lemma setitem_absent k v d : get k d = None -> setitem k v d = d ++ [(k, v)].
Proof.
  induction d as [|[k' v'] d IH]; simpl; [reflexivity|].
  destruct (String.eqb_spec k' k); [discriminate|].
  intros H. now rewrite IH.
Qed.

Lemma setitem_present k v d : get k d = Some v -> setitem k v d = d.
Proof.
  induction d as [|[k' v'] d IH]; simpl; [discriminate|].
  destruct (String.eqb_spec k' k).
  - now intros [= ->].
  - intros H. now rewrite IH.
Qed.

Lemma keys_setitem k v d :
  keys (setitem k v d) = if mem k d then keys d else keys d ++ [k].
Proof.
  unfold mem. induction d as [|[k' v'] d IH]; simpl; [reflexivity|].
  destruct (String.eqb_spec k' k); simpl; [reflexivity|].
  rewrite IH. now destruct (get k d).
Qed.

Lemma wf_setitem k v d : wf d -> wf (setitem k v d).
Proof.
  unfold wf. rewrite keys_setitem. unfold mem.
  destruct (get k d) eqn:E; [easy|].
  intros Hnd. apply get_None_keys in E.
  apply NoDup_rev in Hnd. rewrite <- (rev_involutive (keys d ++ [k])).
  apply NoDup_rev. rewrite rev_app_distr. simpl. constructor; [|exact Hnd].
  now rewrite <- in_rev.
Qed.

Lemma pop_None k d : pop k d = None <-> get k d = None.
Proof.
  induction d as [|[k' v'] d IH]; simpl; [easy|].
  destruct (String.eqb_spec k' k); [easy|].
  destruct (pop k d) as [[x r]|]; [|tauto].
  split; [discriminate|]. intros H. apply IH in H. discriminate.
Qed.

Lemma pop_Some_get k d v r : pop k d = Some (v, r) -> get k d = Some v.
Proof.
  revert r. induction d as [|[k' v'] d IH]; simpl; intros r; [discriminate|].
  destruct (String.eqb_spec k' k).
  - now intros [= -> _].
  - destruct (pop k d) as [[x r']|]; [|discriminate].
    intros [= -> _]. now apply (IH r').
Qed.

Lemma get_pop_other k k' d v r :
  pop k d = Some (v, r) -> k' <> k -> get k' r = get k' d.
Proof.
  intros Hpop Hne. revert r Hpop.
  induction d as [|[k0 v0] d IH]; simpl; intros r; [discriminate|].
  destruct (String.eqb_spec k0 k) as [->|Hne0].
  - intros [= _ <-]. destruct (String.eqb_spec k k'); [congruence|reflexivity].
  - destruct (pop k d) as [[x r']|]; [|discriminate].
    intros [= -> <-]. simpl. now rewrite (IH r' eq_refl).
Qed.

Lemma pop_without k d v r :
  wf d -> pop k d = Some (v, r) -> r = without [k] d.
Proof.
  unfold wf, without. revert r.
  induction d as [|[k0 v0] d IH]; simpl; intros r Hnd; [discriminate|].
  inversion Hnd as [|? ? Hnotin Hnd']; subst.
  destruct (String.eqb_spec k0 k) as [->|Hne0]; simpl.
  - intros [= _ <-]. symmetry. apply forallb_filter_id.
    apply forallb_forall. intros [k1 v1] Hin. simpl.
    destruct (String.eqb_spec k1 k) as [->|_]; [|reflexivity].
    exfalso. apply Hnotin. change k with (fst (k, v1)). now apply in_map.
  - destruct (pop k d) as [[x r']|]; [|discriminate].
    intros [= -> <-]. f_equal. now apply IH.
Qed.

Lemma get_without ks k d :
  get k (without ks d) = if existsb (String.eqb k) ks then None else get k d.
Proof.
  unfold without. induction d as [|[k0 v0] d IH]; simpl.
  - now destruct (existsb _ ks).
  - destruct (String.eqb_spec k0 k) as [->|Hne].
    + destruct (existsb (String.eqb k) ks) eqn:E; simpl.
      * exact IH.
      * now rewrite String.eqb_refl.
    + destruct (existsb (String.eqb k0) ks); simpl.
      * exact IH.
      * destruct (String.eqb_spec k0 k); [contradiction|exact IH].
Qed.

Lemma wf_without ks d : wf d -> wf (without ks d).
Proof.
  unfold wf, without, keys. induction d as [|[k0 v0] d IH]; simpl; [easy|].
  intros Hnd. inversion Hnd as [|? ? Hnotin Hnd']; subst.
  destruct (existsb (String.eqb k0) ks); simpl; [now apply IH|].
  constructor; [|now apply IH].
  intros Hin. apply Hnotin. apply in_map_iff in Hin as [[k1 v1] [E Hin]].
  apply filter_In in Hin as [Hin _]. simpl in E. subst k1.
  change k0 with (fst (k0, v1)). now apply in_map.
Qed.

Lemma wf_pop k d v r : wf d -> pop k d = Some (v, r) -> wf r.
Proof.
  intros Hwf Hpop. rewrite (pop_without k d v r Hwf Hpop).
  now apply wf_without.
Qed.

Lemma get_pop_same k d v r : wf d -> pop k d = Some (v, r) -> get k r = None.
Proof.
  intros Hwf Hpop. rewrite (pop_without k d v r Hwf Hpop), get_without.
  simpl. now rewrite String.eqb_refl.
Qed.

End PyDictFacts.

(** ** Facts about the method monad and the steps of [configure] *)

Section Steps.
Import PyDict PyDictFacts.

Lemma mem_true k d : mem k d = true <-> get k d <> None.
Proof. unfold mem. destruct (get k d); split; congruence. Qed.

Lemma mem_false k d : mem k d = false <-> get k d = None.
Proof. unfold mem. destruct (get k d); split; congruence. Qed.

Lemma mem_setitem_other k k' v d : k' <> k -> mem k' (setitem k v d) = mem k' d.
Proof. intros H. unfold mem. now rewrite get_setitem_other. Qed.

Lemma mem_pop_other k k' d v r :
  pop k d = Some (v, r) -> k' <> k -> mem k' r = mem k' d.
Proof. intros Hp H. unfold mem. now rewrite (get_pop_other k k' d v r Hp H). Qed.

Lemma pop_mem_false k d : mem k d = false -> pop k d = None.
Proof. intros H. apply pop_None. now apply mem_false. Qed.

Lemma pop_mem_true k d : mem k d = true -> exists v r, pop k d = Some (v, r).
Proof.
  intros H. destruct (pop k d) as [[v r]|] eqn:E; [now exists v, r|].
  apply pop_None in E. apply mem_true in H. contradiction.
Qed.

Lemma only_adds_opengl_refl d : only_adds_opengl d d.
Proof. intros k v H. now left. Qed.

Lemma only_adds_opengl_trans d1 d2 d3 :
  only_adds_opengl d1 d2 -> only_adds_opengl d2 d3 -> only_adds_opengl d1 d3.
Proof.
  intros H12 H23 k v H. destruct (H23 k v H) as [H'|H']; [now apply H12|now right].
Qed.

Lemma opengl_step_run o d c :
  exists d', opengl_step o (mkState d c) = (mkState d' c, Returned tt)
    /\ (wf d -> wf d')
    /\ only_adds_opengl d d'
    /\ (forall k, k <> "opengl" -> get k d' = get k d).
Proof.
  unfold opengl_step. destruct (_ =? "yes").
  - exists (setitem "opengl" opengl_sanity_check d). repeat split.
    + apply wf_setitem.
    + intros k v H. destruct (String.eqb_spec k "opengl") as [->|Hne].
      * rewrite get_setitem_same in H. injection H as <-. now right.
      * rewrite get_setitem_other in H by exact Hne. now left.
    + intros k Hne. now apply get_setitem_other.
  - exists d. repeat split; [easy|apply only_adds_opengl_refl].
Qed.

Lemma packages_pop_run k d c :
  (mem k d = false /\ packages_pop k (mkState d c) = (mkState d c, Raised (KeyError k)))
  \/ (exists v d', mem k d = true
        /\ packages_pop k (mkState d c) = (mkState d' c, Returned v)
        /\ (wf d -> wf d' /\ d' = without [k] d)
        /\ (forall k', k' <> k -> get k' d' = get k' d)).
Proof.
  unfold packages_pop. simpl. destruct (pop k d) as [[v r]|] eqn:E.
  - right. exists v, r. repeat split.
    + apply mem_true. now rewrite (pop_Some_get _ _ _ _ E).
    + now apply (wf_pop k d v r).
    + now apply (pop_without k d v r).
    + intros k' Hne. now apply (get_pop_other k k' d v r).
  - left. split; [|reflexivity]. apply mem_false. now apply pop_None.
Qed.

Lemma for_each_requires (l : list (string * string)) d c :
  for_each l (fun '(name, ref) => emit (requires ref)) (mkState d c)
  = (mkState d (c ++ map requires (map snd l)), Returned tt).
Proof.
  revert c. induction l as [|[name ref] l IH]; intros c; simpl.
  - unfold ret. now rewrite app_nil_r.
  - unfold bind, emit. simpl. rewrite IH. now rewrite <- app_assoc.
Qed.

Lemma without_only_adds_opengl ks d : only_adds_opengl d (without ks d).
Proof.
  intros k v H. left. rewrite get_without in H.
  now destruct (existsb (String.eqb k) ks).
Qed.

Lemma sdl_step_run o d c :
  exists d' r, sdl_step o (mkState d c) = (mkState d' c, r)
    /\ (r = Returned tt <->
        (sdl_source o = "system" ->
           mem "sdl" d = true /\ mem "sdl_ttf" d = true))
    /\ (forall k, k <> "sdl" -> k <> "sdl_ttf" -> get k d' = get k d)
    /\ (wf d -> wf d' /\ only_adds_opengl d d').
Proof.
  unfold sdl_step, bind.
  destruct (String.eqb_spec (sdl_source o) "system") as [Es|Es].
  - destruct (packages_pop_run "sdl" d c)
      as [[Hm ->]|[v [d1 [Hm [-> [Hwf Hk]]]]]].
    + exists d, (Raised (KeyError "sdl")). repeat split; try easy.
      * intros H. destruct (H Es). congruence.
      * apply only_adds_opengl_refl.
    + assert (Httf : mem "sdl_ttf" d1 = mem "sdl_ttf" d).
      { unfold mem. now rewrite Hk. }
      destruct (packages_pop_run "sdl_ttf" d1 c)
        as [[Hm1 ->]|[v1 [d2 [Hm1 [-> [Hwf1 Hk1]]]]]].
      * exists d1, (Raised (KeyError "sdl_ttf")). repeat split; try easy.
        -- intros H. destruct (H Es). congruence.
        -- intros k Hk' _. now apply Hk.
        -- now apply Hwf.
        -- destruct (Hwf H) as [_ ->]. apply without_only_adds_opengl.
      * exists d2, (Returned tt). repeat split; try easy; try congruence.
        -- intros k Hk' Hk''. rewrite Hk1 by exact Hk''. now apply Hk.
        -- apply Hwf1. now apply Hwf.
        -- destruct (Hwf H) as [Hwfd1 ->]. destruct (Hwf1 Hwfd1) as [_ ->].
           eapply only_adds_opengl_trans; apply without_only_adds_opengl.
  - exists d, (Returned tt). repeat split; try easy.
    apply only_adds_opengl_refl.
Qed.

Lemma glfw_step_run o d c :
  exists d' r, glfw_step o (mkState d c) = (mkState d' c, r)
    /\ (r = Returned tt <->
        (opengl_source o = "system" -> mem "glfw" d = true))
    /\ (forall k, k <> "glfw" -> get k d' = get k d)
    /\ (wf d -> wf d' /\ only_adds_opengl d d').
Proof.
  unfold glfw_step, bind.
  destruct (String.eqb_spec (opengl_source o) "system") as [Eg|Eg].
  - destruct (packages_pop_run "glfw" d c)
      as [[Hm ->]|[v [d1 [Hm [-> [Hwf Hk]]]]]].
    + exists d, (Raised (KeyError "glfw")). repeat split; try easy.
      * intros H. rewrite (H Eg) in Hm. discriminate.
      * apply only_adds_opengl_refl.
    + exists d1, (Returned tt). repeat split; try easy.
      * now apply Hwf.
      * destruct (Hwf H) as [_ ->]. apply without_only_adds_opengl.
  - exists d, (Returned tt). repeat split; try easy.
    apply only_adds_opengl_refl.
Qed.

(** [configure] on any table: it never touches the call log, it returns
    normally exactly when the keys it pops are there, and, raising or
    not, it leaves a table made of old entries and at most the sanity
    check. *)
Lemma configure_run o d c :
  exists d' r, configure o (mkState d c) = (mkState d' c, r)
    /\ (r = Returned tt <->
        (sdl_source o = "system" ->
           mem "sdl" d = true /\ mem "sdl_ttf" d = true)
        /\ (opengl_source o = "system" -> mem "glfw" d = true))
    /\ (wf d -> wf d' /\ only_adds_opengl d d').
Proof.
  unfold configure, bind.
  destruct (opengl_step_run o d c) as [d1 [-> [Hwf1 [Hsub1 Hk1]]]].
  assert (Hmem : forall k, k <> "opengl" -> mem k d1 = mem k d).
  { intros k Hk. unfold mem. now rewrite Hk1. }
  rewrite <- (Hmem "sdl"), <- (Hmem "sdl_ttf"), <- (Hmem "glfw")
    by discriminate.
  destruct (sdl_step_run o d1 c) as [d2 [r2 [-> [Hr2 [Hk2 Hwf2]]]]].
  assert (Hsub2 : wf d -> wf d2 /\ only_adds_opengl d d2).
  { intros H. destruct (Hwf2 (Hwf1 H)) as [Hw Hs]. split; [exact Hw|].
    now apply (only_adds_opengl_trans d d1 d2). }
  destruct r2 as [[]|e].
  - destruct (glfw_step_run o d2 c) as [d3 [r3 [-> [Hr3 [Hk3 Hwf3]]]]].
    exists d3, r3. split; [reflexivity|].
    assert (Hg : mem "glfw" d2 = mem "glfw" d1).
    { unfold mem. now rewrite Hk2. }
    rewrite Hg in Hr3. split.
    + rewrite Hr3. split; [intros H|tauto]. split; [|exact H].
      now apply Hr2.
    + intros H. destruct (Hsub2 H) as [Hw Hs].
      destruct (Hwf3 Hw) as [Hw3 Hs3]. split; [exact Hw3|].
      now apply (only_adds_opengl_trans d d2 d3).
  - exists d2, (Raised e). split; [reflexivity|]. split; [|exact Hsub2].
    split; [discriminate|]. intros [H _]. apply Hr2 in H. discriminate.
Qed.

End Steps.

(** ** Properties of the resolution step *)

Section Resolution.
Import PyDict PyDictFacts.

Ltac unfold_configure :=
  unfold configure, opengl_step, sdl_step, glfw_step; simpl.

(** Split on the three tests [configure] makes on the options. *)
Ltac by_branches o :=
  destruct o as [? ? ?]; simpl in *; subst; unfold_configure;
  repeat match goal with
         | |- context [String.eqb ?x ?y] => destruct (String.eqb_spec x y)
         end;
  subst; simpl in *; try congruence.

(** C3. With every option at its default, configuring the table of the
    class body yields that table followed by the entry
    opengl -> "opengl/system": ten entries. *)
Theorem configure_defaults :
  configure defaults initial
  = (mkState (conan_packages ++ [("opengl", opengl_sanity_check)]) [],
     Returned tt)
  /\ length (packages (fst (configure defaults initial))) = 10
  /\ valid defaults = true.
Proof. repeat split. Qed.

(** C6. When check_opengl_compatibility is "no", configuring the table
    of the class body returns normally and the resulting table has no
    key "opengl". *)
Theorem configure_no_check_no_opengl (o : Options) :
  check_opengl_compatibility o = "no" ->
  exists s', configure o initial = (s', Returned tt)
    /\ get "opengl" (packages s') = None
    /\ mem "opengl" (packages s') = false.
Proof.
  intros H. by_branches o; eexists; repeat split.
Qed.

Lemma configure_no_check_no_opengl_witness :
  exists s', configure (mkOptions "no" "system" "conan") initial = (s', Returned tt)
    /\ get "opengl" (packages s') = None
    /\ mem "opengl" (packages s') = false.
Proof.
  apply (configure_no_check_no_opengl (mkOptions "no" "system" "conan")).
  reflexivity.
Defined.




(** C1, as stated, fails: with sdl_source = "system" the first
    [configure] pops "sdl" and "sdl_ttf" from the shared table and
    returns; the second, given the same options, finds "sdl" gone and
    raises [KeyError]. *)
Lemma second_configure_raises :
  let o := mkOptions "yes" "conan" "system" in
  let s1 := mkState (without ["sdl"; "sdl_ttf"] conan_packages
                     ++ [("opengl", opengl_sanity_check)]) [] in
  configure o initial = (s1, Returned tt)
  /\ configure o s1 = (s1, Raised (KeyError "sdl"))
  /\ ~ second_call_repeats_first o.
Proof.
  repeat split. unfold second_call_repeats_first. vm_compute. discriminate.
Qed.

(** C1, amended. [configure] reads and updates the one shared table, so
    a second invocation starts from what the first left.  From the table
    of the class body the first invocation returns normally, for every
    option set; the second leaves the table as the first left it, and
    returns normally unless sdl_source or opengl_source is "system", in
    which case it raises [KeyError] for the first key it no longer
    finds. *)
Theorem configure_twice (o : Options) :
  exists s1,
    configure o initial = (s1, Returned tt)
    /\ configure o s1
       = (s1, if sdl_source o =? "system" then Raised (KeyError "sdl")
              else if opengl_source o =? "system" then Raised (KeyError "glfw")
              else Returned tt).
Proof.
  destruct o as [c g s]. unfold_configure.
  destruct (c =? "yes"), (s =? "system"), (g =? "system");
    eexists; split; reflexivity.
Qed.

(** C2, as stated, fails: on a table without "sdl", [configure] with
    sdl_source = "system" raises [KeyError]; on one without "glfw", so
    does [configure] with opengl_source = "system"; and popping "glfw"
    a second time raises. *)
Lemma configure_absent_key_raises :
  let no_sdl := without ["sdl"] conan_packages in
  let no_glfw := without ["glfw"] conan_packages in
  mem "sdl" no_sdl = false
  /\ snd (configure (mkOptions "yes" "conan" "system") (mkState no_sdl []))
     = Raised (KeyError "sdl")
  /\ mem "glfw" no_glfw = false
  /\ snd (configure (mkOptions "yes" "system" "conan") (mkState no_glfw []))
     = Raised (KeyError "glfw")
  /\ snd ((_ <- packages_pop "glfw" ;; packages_pop "glfw") initial)
     = Raised (KeyError "glfw").
Proof. repeat split. Qed.

(** C2, amended. Popping an absent key raises [KeyError].  On any
    table, [configure] returns normally exactly when every key it is
    asked to pop is there: "sdl" and "sdl_ttf" if sdl_source is
    "system", "glfw" if opengl_source is "system". *)
Theorem configure_completes_iff (o : Options) (s : state) :
  completes (configure o s)
  <-> (sdl_source o = "system" ->
         mem "sdl" (packages s) = true /\ mem "sdl_ttf" (packages s) = true)
      /\ (opengl_source o = "system" -> mem "glfw" (packages s) = true).
Proof.
  destruct s as [d c]. unfold completes. simpl.
  destruct (configure_run o d c) as [d' [r [-> [Hr _]]]]. exact Hr.
Qed.

Lemma configure_completes_iff_witness :
  completes (configure (mkOptions "no" "system" "system") initial)
  /\ ~ completes (configure (mkOptions "no" "system" "system")
                            (mkState (without ["sdl_ttf"] conan_packages) [])).
Proof.
  split.
  - apply (configure_completes_iff (mkOptions "no" "system" "system") initial).
    now repeat split.
  - intros H.
    apply (configure_completes_iff (mkOptions "no" "system" "system")) in H.
    destruct H as [H _]. destruct (H eq_refl) as [_ Httf]. discriminate.
Defined.

(** C4. Whatever the other two options are, switching sdl_source to
    "system" takes "sdl" and "sdl_ttf", and nothing else, out of the
    table that [configure] produces from the table of the class body:
    the result is the result for sdl_source = "conan" without these two
    keys, which were both there; every other key is looked up alike. *)
Theorem sdl_system_removes_sdl_only (o : Options) :
  sdl_source o = "system" ->
  exists s_sys s_conan,
    configure o initial = (s_sys, Returned tt)
    /\ configure (set_sdl_source "conan" o) initial = (s_conan, Returned tt)
    /\ packages s_sys = without ["sdl"; "sdl_ttf"] (packages s_conan)
    /\ get "sdl" (packages s_conan) = Some "sdl/2.28.3"
    /\ get "sdl_ttf" (packages s_conan) = Some "sdl_ttf/2.22.0"
    /\ get "sdl" (packages s_sys) = None
    /\ get "sdl_ttf" (packages s_sys) = None
    /\ (forall k, k <> "sdl" -> k <> "sdl_ttf" ->
          get k (packages s_sys) = get k (packages s_conan)).
Proof.
  intros H.
  assert (Hother : forall d k, k <> "sdl" -> k <> "sdl_ttf" ->
            get k (without ["sdl"; "sdl_ttf"] d) = get k d).
  { intros d k H1 H2. rewrite get_without. simpl.
    destruct (String.eqb_spec k "sdl"); [contradiction|].
    destruct (String.eqb_spec k "sdl_ttf"); [contradiction|reflexivity]. }
  by_branches o; do 2 eexists;
    (split; [cbv; reflexivity|]); (split; [cbv; reflexivity|]);
    match goal with
    | |- ?a = ?b /\ _ => assert (Hp : a = b) by reflexivity
    end;
    (split; [exact Hp|]); repeat (split; [reflexivity|]);
    intros k H1 H2; rewrite Hp; now apply Hother.
Qed.

Lemma sdl_system_removes_sdl_only_witness :
  exists s_sys s_conan,
    configure (mkOptions "yes" "system" "system") initial = (s_sys, Returned tt)
    /\ configure (mkOptions "yes" "system" "conan") initial
       = (s_conan, Returned tt)
    /\ packages s_sys = without ["sdl"; "sdl_ttf"] (packages s_conan)
    /\ get "sdl" (packages s_conan) = Some "sdl/2.28.3"
    /\ get "sdl_ttf" (packages s_conan) = Some "sdl_ttf/2.22.0"
    /\ get "sdl" (packages s_sys) = None
    /\ get "sdl_ttf" (packages s_sys) = None
    /\ (forall k, k <> "sdl" -> k <> "sdl_ttf" ->
          get k (packages s_sys) = get k (packages s_conan)).
Proof.
  apply (sdl_system_removes_sdl_only (mkOptions "yes" "system" "system")).
  reflexivity.
Defined.

(** C5. Whatever the other two options are, switching opengl_source to
    "system" takes "glfw", and nothing else, out of the table that
    [configure] produces from the table of the class body: the result is
    the result for opengl_source = "conan" without that key, which was
    there; every other key is looked up alike. *)
Theorem opengl_system_removes_glfw_only (o : Options) :
  opengl_source o = "system" ->
  exists s_sys s_conan,
    configure o initial = (s_sys, Returned tt)
    /\ configure (set_opengl_source "conan" o) initial = (s_conan, Returned tt)
    /\ packages s_sys = without ["glfw"] (packages s_conan)
    /\ get "glfw" (packages s_conan) = Some "glfw/3.3.8"
    /\ get "glfw" (packages s_sys) = None
    /\ (forall k, k <> "glfw" ->
          get k (packages s_sys) = get k (packages s_conan)).
Proof.
  intros H.
  assert (Hother : forall d k, k <> "glfw" ->
            get k (without ["glfw"] d) = get k d).
  { intros d k H1. rewrite get_without. simpl.
    destruct (String.eqb_spec k "glfw"); [contradiction|reflexivity]. }
  by_branches o; do 2 eexists;
    (split; [cbv; reflexivity|]); (split; [cbv; reflexivity|]);
    match goal with
    | |- ?a = ?b /\ _ => assert (Hp : a = b) by reflexivity
    end;
    (split; [exact Hp|]); repeat (split; [reflexivity|]);
    intros k H1; rewrite Hp; now apply Hother.
Qed.

Lemma opengl_system_removes_glfw_only_witness :
  exists s_sys s_conan,
    configure (mkOptions "no" "system" "system") initial = (s_sys, Returned tt)
    /\ configure (mkOptions "no" "conan" "system") initial
       = (s_conan, Returned tt)
    /\ packages s_sys = without ["glfw"] (packages s_conan)
    /\ get "glfw" (packages s_conan) = Some "glfw/3.3.8"
    /\ get "glfw" (packages s_sys) = None
    /\ (forall k, k <> "glfw" ->
          get k (packages s_sys) = get k (packages s_conan)).
Proof.
  apply (opengl_system_removes_glfw_only (mkOptions "no" "system" "system")).
  reflexivity.
Defined.

(** The orders in which three distinct steps can be run. *)
Lemma orders_of_three (l : list step) :
  Permutation l source_order ->
  In l [ [InsertOpengl; RemoveSdl; RemoveGlfw];
         [InsertOpengl; RemoveGlfw; RemoveSdl];
         [RemoveSdl; InsertOpengl; RemoveGlfw];
         [RemoveSdl; RemoveGlfw; InsertOpengl];
         [RemoveGlfw; InsertOpengl; RemoveSdl];
         [RemoveGlfw; RemoveSdl; InsertOpengl] ].
Proof.
  intros H. pose proof (Permutation_length H) as Hlen.
  destruct l as [|a [|b [|x [|y l]]]]; try discriminate Hlen.
  assert (Hcount : forall st, count_occ step_eq_dec [a; b; x] st
                              = count_occ step_eq_dec source_order st).
  { intros st. now apply Permutation_count_occ. }
  pose proof (Hcount InsertOpengl) as H1.
  pose proof (Hcount RemoveSdl) as H2.
  pose proof (Hcount RemoveGlfw) as H3.
  destruct a, b, x; simpl in H1, H2, H3; try discriminate; simpl; tauto.
Qed.

(** C7. For every option set, running the three conditional steps on
    the table of the class body in any of their six orders ends in the
    state, table and outcome, that [configure] ends in. *)
Theorem steps_commute (o : Options) (l : list step) :
  Permutation l source_order ->
  run_steps o l initial = configure o initial.
Proof.
  intros H. apply orders_of_three in H. simpl in H.
  destruct o as [c g s]. unfold run_steps, configure.
  decompose [or] H; clear H; try contradiction; subst l; simpl;
    unfold opengl_step, sdl_step, glfw_step; simpl;
    destruct (c =? "yes"), (s =? "system"), (g =? "system"); reflexivity.
Qed.

Lemma steps_commute_witness :
  run_steps (mkOptions "yes" "system" "system")
            [RemoveGlfw; RemoveSdl; InsertOpengl] initial
  = configure (mkOptions "yes" "system" "system") initial.
Proof.
  apply (steps_commute (mkOptions "yes" "system" "system")).
  unfold source_order.
  apply perm_trans with [RemoveSdl; RemoveGlfw; InsertOpengl].
  - apply perm_swap.
  - apply perm_trans with [RemoveSdl; InsertOpengl; RemoveGlfw].
    + apply perm_skip. apply perm_swap.
    + apply perm_swap.
Defined.

Lemma wf_conan_packages : wf conan_packages.
Proof.
  unfold wf. simpl. repeat constructor; simpl; intuition discriminate.
Qed.

(** C8. For every option set, each entry of the table that [configure]
    produces from the table of the class body is an entry of that table
    or the entry opengl -> "opengl/system". *)
Theorem configure_only_deletes (o : Options) :
  exists s', configure o initial = (s', Returned tt)
    /\ incl (items (packages s'))
            (items (conan_packages ++ [("opengl", opengl_sanity_check)]))
    /\ (forall k v, get k (packages s') = Some v ->
          get k (setitem "opengl" opengl_sanity_check conan_packages)
          = Some v).
Proof.
  destruct (configure_run o conan_packages []) as [d' [r [Hrun [Hr Hsub]]]].
  destruct (Hsub wf_conan_packages) as [Hwf Honly].
  assert (Hret : r = Returned tt).
  { apply Hr. now repeat split. }
  subst r. exists (mkState d' []). split; [exact Hrun|].
  unfold items. cbn [packages]. split.
  - intros [k v] Hin. apply (In_get k v d' Hwf) in Hin.
    apply in_or_app. destruct (Honly k v Hin) as [Hold|[-> ->]].
    + left. now apply get_In.
    + right. now left.
  - intros k v Hget. destruct (Honly k v Hget) as [Hold|[-> ->]].
    + rewrite get_setitem_other; [exact Hold|].
      intros ->. discriminate Hold.
    + apply get_setitem_same.
Qed.

(** C9. [requirements], [generate] and [layout] leave the table as
    they found it, on any state and so on the one [configure] left:
    [requirements] calls [self.requires] once per entry, in table order,
    with the entry's reference; [generate] runs the two generators;
    [layout] calls [cmake_layout]. *)
Theorem table_frozen_after_configure (s : state) :
  requirements s
  = (mkState (packages s)
             (calls s ++ map requires (values (packages s))),
     Returned tt)
  /\ generate s
     = (mkState (packages s)
                (calls s ++ [CMakeToolchain_generate; CMakeDeps_generate]),
        Returned tt)
  /\ layout s
     = (mkState (packages s) (calls s ++ [cmake_layout]), Returned tt)
  /\ length (map requires (values (packages s))) = length (packages s).
Proof.
  destruct s as [d c]. unfold requirements, generate, layout. simpl.
  repeat split.
  - apply for_each_requires.
  - unfold bind, emit. simpl. now rewrite <- app_assoc.
  - unfold values. now rewrite !length_map.
Qed.

(** Scenario B: system SDL, everything else at its default. *)
Example scenario_system_sdl :
  configure (mkOptions "yes" "conan" "system") initial
  = (mkState [ ("fmt", "fmt/10.2.1"); ("mp-units", "mp-units/2.2.1");
               ("scope-lite", "scope-lite/0.2.0");
               ("structopt", "structopt/0.1.3"); ("imgui", "imgui/1.90.5");
               ("implot", "implot/0.16"); ("glfw", "glfw/3.3.8");
               ("opengl", "opengl/system") ] [],
     Returned tt).
Proof. reflexivity. Qed.

(** Scenario C: system OpenGL and SDL, no sanity check. *)
Example scenario_all_system_no_check :
  configure (mkOptions "no" "system" "system") initial
  = (mkState [ ("fmt", "fmt/10.2.1"); ("mp-units", "mp-units/2.2.1");
               ("scope-lite", "scope-lite/0.2.0");
               ("structopt", "structopt/0.1.3"); ("imgui", "imgui/1.90.5");
               ("implot", "implot/0.16") ] [],
     Returned tt).
Proof. reflexivity. Qed.

(** A failed [configure] keeps what it changed before raising: with
    "sdl" present and "sdl_ttf" absent, "sdl" is gone when [KeyError]
    is raised for "sdl_ttf". *)
Example configure_raises_midway :
  configure (mkOptions "no" "conan" "system")
            (mkState [("sdl", "sdl/2.28.3"); ("fmt", "fmt/10.2.1")] [])
  = (mkState [("fmt", "fmt/10.2.1")] [], Raised (KeyError "sdl_ttf")).
Proof. reflexivity. Qed.

End Resolution.

(** ** [configure] on an arbitrary table *)

Section AnyTable.
Import PyDict PyDictFacts.

Lemma delete_cons k k' v d :
  delete k ((k', v) :: d) = if k' =? k then d else (k', v) :: delete k d.
Proof.
  unfold delete. simpl. destruct (k' =? k); [reflexivity|].
  now destruct (pop k d) as [[x r]|].
Qed.

Lemma get_delete_other k k' d : k' <> k -> get k' (delete k d) = get k' d.
Proof.
  intros Hne. unfold delete. destruct (pop k d) as [[v r]|] eqn:E; [|reflexivity].
  now apply (get_pop_other k k' d v r).
Qed.

Lemma delete_absent k d : get k d = None -> delete k d = d.
Proof. intros H. unfold delete. apply pop_None in H. now rewrite H. Qed.

Lemma delete_comm k1 k2 d : delete k1 (delete k2 d) = delete k2 (delete k1 d).
Proof.
  induction d as [|[k v] d IH]; [reflexivity|].
  rewrite !delete_cons.
  destruct (String.eqb_spec k k2) as [E2|N2];
    destruct (String.eqb_spec k k1) as [E1|N1]; subst;
    rewrite ?delete_cons.
  - reflexivity.
  - now rewrite String.eqb_refl.
  - now rewrite String.eqb_refl.
  - destruct (String.eqb_spec k k1); [contradiction|].
    destruct (String.eqb_spec k k2); [contradiction|].
    now rewrite IH.
Qed.

Lemma delete_setitem_comm k k' v d :
  k' <> k -> delete k' (setitem k v d) = setitem k v (delete k' d).
Proof.
  intros Hne. induction d as [|[k0 v0] d IH]; simpl.
  - rewrite delete_cons. destruct (String.eqb_spec k k'); [congruence|].
    unfold delete. reflexivity.
  - rewrite delete_cons.
    destruct (String.eqb_spec k0 k) as [->|N]; rewrite delete_cons.
    + destruct (String.eqb_spec k k'); [congruence|]. simpl.
      now rewrite String.eqb_refl.
    + destruct (String.eqb_spec k0 k') as [->|N']; [reflexivity|].
      simpl. destruct (String.eqb_spec k0 k); [contradiction|].
      now rewrite IH.
Qed.

Lemma delete_without k d : wf d -> delete k d = without [k] d.
Proof.
  intros Hwf. unfold delete. destruct (pop k d) as [[v r]|] eqn:E.
  - now apply (pop_without k d v r).
  - apply pop_None in E. unfold without. symmetry. apply forallb_filter_id.
    apply forallb_forall. intros [k1 v1] Hin. simpl.
    destruct (String.eqb_spec k1 k) as [->|_]; [|reflexivity].
    apply get_None_keys in E. exfalso. apply E.
    change k with (fst (k, v1)). now apply in_map.
Qed.

Lemma without_app ks1 ks2 d :
  without (ks1 ++ ks2) d = without ks2 (without ks1 d).
Proof.
  unfold without. induction d as [|[k v] d IH]; simpl; [reflexivity|].
  rewrite existsb_app.
  destruct (existsb (String.eqb k) ks1); simpl; [exact IH|].
  destruct (existsb (String.eqb k) ks2); simpl; [exact IH|].
  now rewrite IH.
Qed.

Lemma without_nil d : without [] d = d.
Proof.
  unfold without. apply forallb_filter_id. now apply forallb_forall.
Qed.

Lemma without_setitem_comm ks k v d :
  existsb (String.eqb k) ks = false ->
  without ks (setitem k v d) = setitem k v (without ks d).
Proof.
  intros Hk. unfold without. induction d as [|[k0 v0] d IH]; simpl.
  - now rewrite Hk.
  - destruct (String.eqb_spec k0 k) as [->|N]; simpl.
    + rewrite Hk. simpl. now rewrite String.eqb_refl.
    + destruct (existsb (String.eqb k0) ks); simpl; [exact IH|].
      destruct (String.eqb_spec k0 k); [contradiction|]. now rewrite IH.
Qed.

Lemma setitem_idem k v d : setitem k v (setitem k v d) = setitem k v d.
Proof. apply setitem_present, get_setitem_same. Qed.

Lemma length_setitem k v d :
  length (setitem k v d) = length d + (if mem k d then 0 else 1).
Proof.
  unfold mem. induction d as [|[k0 v0] d IH]; simpl; [reflexivity|].
  destruct (String.eqb_spec k0 k); simpl.
  - now rewrite <- plus_n_O.
  - now rewrite IH.
Qed.

Lemma length_delete k d :
  mem k d = true -> S (length (delete k d)) = length d.
Proof.
  unfold mem. induction d as [|[k0 v0] d IH]; simpl; [discriminate|].
  rewrite delete_cons. destruct (String.eqb_spec k0 k); [reflexivity|].
  intros H. simpl. now rewrite IH.
Qed.

Lemma packages_pop_spec k d c :
  packages_pop k (mkState d c)
  = match get k d with
    | Some v => (mkState (delete k d) c, Returned v)
    | None => (mkState d c, Raised (KeyError k))
    end.
Proof.
  unfold packages_pop, delete. simpl.
  destruct (pop k d) as [[v r]|] eqn:E.
  - now rewrite (pop_Some_get k d v r E).
  - apply pop_None in E. now rewrite E.
Qed.

(** [configure], pop by pop: where each [KeyError] comes from and what
    the table is at that point. *)
Lemma configure_spec o d c :
  configure o (mkState d c)
  = let d1 := step_effect o InsertOpengl d in
    if sdl_source o =? "system" then
      if mem "sdl" d then
        if mem "sdl_ttf" d then
          if opengl_source o =? "system" then
            if mem "glfw" d
            then (mkState (delete "glfw" (delete "sdl_ttf" (delete "sdl" d1))) c,
                  Returned tt)
            else (mkState (delete "sdl_ttf" (delete "sdl" d1)) c,
                  Raised (KeyError "glfw"))
          else (mkState (delete "sdl_ttf" (delete "sdl" d1)) c, Returned tt)
        else (mkState (delete "sdl" d1) c, Raised (KeyError "sdl_ttf"))
      else (mkState d1 c, Raised (KeyError "sdl"))
    else
      if opengl_source o =? "system" then
        if mem "glfw" d
        then (mkState (delete "glfw" d1) c, Returned tt)
        else (mkState d1 c, Raised (KeyError "glfw"))
      else (mkState d1 c, Returned tt).
Proof.
  assert (Hd1 : forall k, k <> "opengl" ->
            get k (step_effect o InsertOpengl d) = get k d).
  { intros k Hk. simpl. destruct (_ =? "yes"); [|reflexivity].
    now apply get_setitem_other. }
  cbv zeta. unfold configure, bind at 1.
  assert (Hog : opengl_step o (mkState d c)
                = (mkState (step_effect o InsertOpengl d) c, Returned tt)).
  { unfold opengl_step, step_effect. now destruct (_ =? "yes"). }
  rewrite Hog. clear Hog.
  generalize dependent (step_effect o InsertOpengl d). intros d1 Hd1.
  unfold mem. rewrite <- (Hd1 "sdl"), <- (Hd1 "sdl_ttf"), <- (Hd1 "glfw")
    by discriminate.
  unfold sdl_step, glfw_step, bind.
  destruct (sdl_source o =? "system"), (opengl_source o =? "system");
    rewrite ?packages_pop_spec.
  - destruct (get "sdl" d1); [|reflexivity].
    rewrite packages_pop_spec.
    rewrite (get_delete_other "sdl" "sdl_ttf") by discriminate.
    destruct (get "sdl_ttf" d1); [|reflexivity].
    unfold ret. rewrite packages_pop_spec.
    rewrite !(get_delete_other _ "glfw") by discriminate.
    now destruct (get "glfw" d1).
  - destruct (get "sdl" d1); [|reflexivity].
    rewrite packages_pop_spec.
    rewrite (get_delete_other "sdl" "sdl_ttf") by discriminate.
    now destruct (get "sdl_ttf" d1).
  - unfold ret. rewrite packages_pop_spec. now destruct (get "glfw" d1).
  - reflexivity.
Qed.

Ltac configure_cases o d :=
  rewrite configure_spec; cbv zeta;
  destruct (sdl_source o =? "system") eqn:Esdl;
  destruct (opengl_source o =? "system") eqn:Egl;
  destruct (mem "sdl" d) eqn:Msdl;
  destruct (mem "sdl_ttf" d) eqn:Mttf;
  destruct (mem "glfw" d) eqn:Mglfw;
  cbn [fst snd packages calls].

(** X1. Whatever the table and the options, and whether it returns or
    raises, [configure] leaves the call log alone and every key other
    than "opengl", "sdl", "sdl_ttf" and "glfw" bound as it was. *)
Theorem configure_leaves_other_keys (o : Options) (s : state) (k : string) :
  k <> "opengl" -> k <> "sdl" -> k <> "sdl_ttf" -> k <> "glfw" ->
  get k (packages (fst (configure o s))) = get k (packages s)
  /\ calls (fst (configure o s)) = calls s.
Proof.
  intros Hog Hsdl Httf Hglfw. destruct s as [d c].
  assert (Hd1 : get k (step_effect o InsertOpengl d) = get k d).
  { simpl. destruct (_ =? "yes"); [|reflexivity]. now apply get_setitem_other. }
  configure_cases o d; rewrite ?get_delete_other by assumption; now split.
Qed.

Lemma configure_leaves_other_keys_witness :
  get "fmt" (packages (fst (configure (mkOptions "yes" "system" "system")
                                      (mkState [("fmt", "fmt/10.2.1")]
                                               [cmake_layout]))))
  = Some "fmt/10.2.1"
  /\ calls (fst (configure (mkOptions "yes" "system" "system")
                           (mkState [("fmt", "fmt/10.2.1")] [cmake_layout])))
     = [cmake_layout].
Proof.
  apply (configure_leaves_other_keys
           (mkOptions "yes" "system" "system")
           (mkState [("fmt", "fmt/10.2.1")] [cmake_layout]) "fmt");
    discriminate.
Defined.

(** X2. On any table, [configure] raises [KeyError] for the first key,
    in the order "sdl", "sdl_ttf", "glfw", that the options ask it to pop
    and the table lacks, and returns normally when there is none. *)
Theorem configure_raises_first_missing (o : Options) (s : state) :
  snd (configure o s)
  = match first_missing o (packages s) with
    | Some k => Raised (KeyError k)
    | None => Returned tt
    end.
Proof.
  destruct s as [d c]. unfold first_missing. cbn [packages].
  configure_cases o d; reflexivity.
Qed.

(** X3. [configure] keeps a duplicate-free table duplicate-free, and
    whether it returns or raises, every entry it leaves is an entry it
    found or the sanity check. *)
Theorem configure_keeps_wf (o : Options) (s : state) :
  wf (packages s) ->
  wf (packages (fst (configure o s)))
  /\ only_adds_opengl (packages s) (packages (fst (configure o s))).
Proof.
  destruct s as [d c]. simpl. intros Hwf.
  destruct (configure_run o d c) as [d' [r [-> [_ H]]]]. now apply H.
Qed.

Lemma configure_keeps_wf_witness :
  let s := mkState [("sdl", "sdl/2.28.3"); ("fmt", "fmt/10.2.1")] [] in
  let o := mkOptions "yes" "conan" "system" in
  wf (packages (fst (configure o s)))
  /\ only_adds_opengl (packages s) (packages (fst (configure o s))).
Proof.
  apply (configure_keeps_wf
           (mkOptions "yes" "conan" "system")
           (mkState [("sdl", "sdl/2.28.3"); ("fmt", "fmt/10.2.1")] [])).
  unfold wf. simpl. repeat constructor; simpl; intuition discriminate.
Defined.

Lemma existsb_removed_opengl o :
  existsb (String.eqb "opengl") (removed_keys o) = false.
Proof.
  unfold removed_keys.
  now destruct (sdl_source o =? "system"), (opengl_source o =? "system").
Qed.

Lemma configure_returned_table o d c :
  wf d ->
  snd (configure o (mkState d c)) = Returned tt ->
  fst (configure o (mkState d c)) = mkState (resolved_table o d) c.
Proof.
  unfold resolved_table. intros Hwf.
  rewrite <- without_setitem_comm by apply existsb_removed_opengl.
  assert (Hwf1 : wf (step_effect o InsertOpengl d)).
  { simpl. destruct (_ =? "yes"); [now apply wf_setitem|exact Hwf]. }
  replace (if check_opengl_compatibility o =? "yes"
           then without (removed_keys o)
                        (setitem "opengl" opengl_sanity_check d)
           else without (removed_keys o) d)
    with (without (removed_keys o) (step_effect o InsertOpengl d))
    by (simpl; now destruct (_ =? "yes")).
  unfold removed_keys.
  configure_cases o d; try discriminate; intros _; f_equal;
    rewrite ?(delete_without "sdl") by exact Hwf1;
    rewrite ?(delete_without "sdl_ttf") by (now apply wf_without);
    rewrite ?(delete_without "glfw") by (now repeat apply wf_without);
    rewrite <- ?without_app; cbn [app]; rewrite ?without_nil; reflexivity.
Qed.

(** X4. On a duplicate-free table where it returns normally,
    [configure] leaves exactly the table without the keys the options
    ask to pop, with "opengl" bound to the sanity check when
    check_opengl_compatibility is "yes"; the call log is untouched. *)
Theorem configure_closed_form (o : Options) (s : state) :
  wf (packages s) ->
  completes (configure o s) ->
  fst (configure o s) = mkState (resolved_table o (packages s)) (calls s).
Proof.
  destruct s as [d c]. unfold completes. cbn [packages calls].
  apply configure_returned_table.
Qed.

Lemma configure_closed_form_witness :
  fst (configure (mkOptions "yes" "system" "conan") initial)
  = mkState (resolved_table (mkOptions "yes" "system" "conan")
                            conan_packages) [].
Proof.
  apply (configure_closed_form (mkOptions "yes" "system" "conan") initial).
  - apply wf_conan_packages.
  - reflexivity.
Defined.

Lemma get_resolved_removed o d k :
  existsb (String.eqb k) (removed_keys o) = true ->
  get k (resolved_table o d) = None.
Proof.
  intros Hk. unfold resolved_table.
  assert (Hne : k <> "opengl").
  { intros ->. rewrite existsb_removed_opengl in Hk. discriminate. }
  assert (Hw : get k (without (removed_keys o) d) = None).
  { rewrite get_without. now rewrite Hk. }
  destruct (_ =? "yes"); [|exact Hw].
  now rewrite get_setitem_other.
Qed.

(** X5. On a duplicate-free table where [configure] returns normally,
    the result agrees with the options: no "sdl" and no "sdl_ttf" when
    sdl_source is "system", no "glfw" when opengl_source is "system",
    and "opengl" bound to "opengl/system" when
    check_opengl_compatibility is "yes". *)
Theorem configure_result_agrees_with_options (o : Options) (s : state) :
  wf (packages s) ->
  completes (configure o s) ->
  let d' := packages (fst (configure o s)) in
  (sdl_source o = "system" -> mem "sdl" d' = false /\ mem "sdl_ttf" d' = false)
  /\ (opengl_source o = "system" -> mem "glfw" d' = false)
  /\ (check_opengl_compatibility o = "yes" ->
        get "opengl" d' = Some opengl_sanity_check).
Proof.
  destruct s as [d c]. unfold completes. cbn [packages]. intros Hwf Hret.
  rewrite (configure_returned_table o d c Hwf Hret). cbn [packages].
  cbv zeta. split; [intros H; split|split; intros H].
  - apply mem_false, get_resolved_removed. unfold removed_keys.
    now rewrite H.
  - apply mem_false, get_resolved_removed. unfold removed_keys.
    now rewrite H.
  - apply mem_false, get_resolved_removed. unfold removed_keys.
    rewrite H. now destruct (sdl_source o =? "system").
  - unfold resolved_table. rewrite H. apply get_setitem_same.
Qed.

Lemma configure_result_agrees_with_options_witness :
  let d' := packages (fst (configure (mkOptions "yes" "system" "system")
                                     initial)) in
  (mem "sdl" d' = false /\ mem "sdl_ttf" d' = false)
  /\ mem "glfw" d' = false
  /\ get "opengl" d' = Some opengl_sanity_check.
Proof.
  destruct (configure_result_agrees_with_options
              (mkOptions "yes" "system" "system") initial)
    as [Hsdl [Hglfw Hog]].
  - apply wf_conan_packages.
  - reflexivity.
  - split; [now apply Hsdl|]. split; [now apply Hglfw|now apply Hog].
Defined.

(** X6. A [configure] that raises keeps what it did before: on a
    duplicate-free table that has "sdl" but not "sdl_ttf", with
    sdl_source = "system", it raises [KeyError] for "sdl_ttf" after the
    sanity check was set (if asked for) and "sdl" was popped. *)
Theorem configure_raise_keeps_changes (o : Options) (s : state) :
  wf (packages s) ->
  sdl_source o = "system" ->
  mem "sdl" (packages s) = true ->
  mem "sdl_ttf" (packages s) = false ->
  configure o s
  = (mkState (without ["sdl"] (step_effect o InsertOpengl (packages s)))
             (calls s),
     Raised (KeyError "sdl_ttf"))
  /\ mem "sdl" (packages (fst (configure o s))) = false.
Proof.
  destruct s as [d c]. cbn [packages calls]. intros Hwf Hsys Hsdl Httf.
  assert (Hwf1 : wf (step_effect o InsertOpengl d)).
  { simpl. destruct (_ =? "yes"); [now apply wf_setitem|exact Hwf]. }
  rewrite configure_spec. cbv zeta. rewrite Hsys, Hsdl, Httf. simpl String.eqb.
  cbn iota. rewrite (delete_without "sdl") by exact Hwf1.
  split; [reflexivity|]. cbn [fst packages].
  apply mem_false. rewrite get_without. reflexivity.
Qed.

Lemma configure_raise_keeps_changes_witness :
  let s := mkState [("sdl", "sdl/2.28.3"); ("fmt", "fmt/10.2.1")] [] in
  let o := mkOptions "yes" "conan" "system" in
  configure o s
  = (mkState (without ["sdl"] (step_effect o InsertOpengl (packages s)))
             (calls s),
     Raised (KeyError "sdl_ttf"))
  /\ mem "sdl" (packages (fst (configure o s))) = false.
Proof.
  apply (configure_raise_keeps_changes
           (mkOptions "yes" "conan" "system")
           (mkState [("sdl", "sdl/2.28.3"); ("fmt", "fmt/10.2.1")] []));
    try reflexivity.
  unfold wf. simpl. repeat constructor; simpl; intuition discriminate.
Defined.

(** X7. Whether it returns or raises, [configure] leaves "opengl" bound
    to the sanity check when check_opengl_compatibility is "yes", and
    bound as it found it otherwise: it never removes an entry that an
    earlier invocation added. *)
Theorem configure_opengl_binding (o : Options) (s : state) :
  get "opengl" (packages (fst (configure o s)))
  = if check_opengl_compatibility o =? "yes"
    then Some opengl_sanity_check
    else get "opengl" (packages s).
Proof.
  destruct s as [d c]. cbn [packages].
  assert (Hd1 : get "opengl" (step_effect o InsertOpengl d)
                = if check_opengl_compatibility o =? "yes"
                  then Some opengl_sanity_check else get "opengl" d).
  { simpl. destruct (_ =? "yes"); [apply get_setitem_same|reflexivity]. }
  configure_cases o d; rewrite ?get_delete_other by discriminate; exact Hd1.
Qed.

(** X8. When neither sdl_source nor opengl_source is "system",
    [configure] is idempotent on every table: run on the state it left,
    it returns normally and leaves that state. *)
Theorem configure_idempotent_without_system (o : Options) (s : state) :
  sdl_source o <> "system" ->
  opengl_source o <> "system" ->
  configure o (fst (configure o s)) = configure o s.
Proof.
  destruct s as [d c]. intros Hsdl Hgl.
  apply String.eqb_neq in Hsdl, Hgl.
  rewrite (configure_spec o d c). cbv zeta. rewrite Hsdl, Hgl. cbn [fst].
  rewrite configure_spec. cbv zeta. rewrite Hsdl, Hgl.
  do 2 f_equal. simpl. destruct (_ =? "yes"); [apply setitem_idem|reflexivity].
Qed.

Lemma configure_idempotent_without_system_witness :
  configure defaults (fst (configure defaults initial))
  = configure defaults initial.
Proof.
  apply (configure_idempotent_without_system defaults initial); discriminate.
Defined.

Lemma run_step_returns o st d c :
  step_ready o st d ->
  run_step o st (mkState d c) = (mkState (step_effect o st d) c, Returned tt).
Proof.
  destruct st; simpl.
  - intros _. unfold opengl_step. now destruct (_ =? "yes").
  - unfold sdl_step, bind. destruct (String.eqb_spec (sdl_source o) "system");
      [|reflexivity].
    intros H. destruct (H e) as [Hsdl Httf]. apply mem_true in Hsdl, Httf.
    rewrite packages_pop_spec. destruct (get "sdl" d); [|contradiction].
    rewrite packages_pop_spec.
    rewrite (get_delete_other "sdl" "sdl_ttf") by discriminate.
    now destruct (get "sdl_ttf" d).
  - unfold glfw_step, bind.
    destruct (String.eqb_spec (opengl_source o) "system"); [|reflexivity].
    intros H. pose proof (H e) as Hglfw. apply mem_true in Hglfw.
    rewrite packages_pop_spec. now destruct (get "glfw" d).
Qed.

Lemma mem_delete_other k k' d : k' <> k -> mem k' (delete k d) = mem k' d.
Proof. intros H. unfold mem. now rewrite get_delete_other. Qed.

Lemma step_ready_other o st st' d :
  st <> st' -> step_ready o st d -> step_ready o st (step_effect o st' d).
Proof.
  intros Hne.
  destruct st, st'; try contradiction; simpl; try easy;
    repeat match goal with
           | |- context [String.eqb ?x ?y] => destruct (String.eqb x y)
           end;
    rewrite ?mem_delete_other, ?mem_setitem_other by discriminate; easy.
Qed.

Lemma step_effect_comm o st st' d :
  step_effect o st (step_effect o st' d)
  = step_effect o st' (step_effect o st d).
Proof.
  destruct st, st'; simpl; try reflexivity;
    repeat match goal with
           | |- context [String.eqb ?x ?y] => destruct (String.eqb x y)
           end;
    try reflexivity;
    rewrite ?delete_setitem_comm by discriminate; try reflexivity.
  - now rewrite (delete_comm "sdl" "glfw"), (delete_comm "sdl_ttf" "glfw").
  - now rewrite (delete_comm "glfw" "sdl_ttf"), (delete_comm "glfw" "sdl").
Qed.

Lemma run_steps_returns o l : forall d c,
  NoDup l ->
  (forall st, In st l -> step_ready o st d) ->
  run_steps o l (mkState d c)
  = (mkState (fold_left (fun t st => step_effect o st t) l d) c, Returned tt).
Proof.
  unfold run_steps. induction l as [|st l IH]; intros d c Hnd Hready.
  - reflexivity.
  - inversion Hnd as [|? ? Hnotin Hnd']; subst. simpl. unfold bind.
    rewrite run_step_returns by (apply Hready; now left).
    apply IH; [exact Hnd'|]. intros st' Hin. apply step_ready_other.
    + intros ->. contradiction.
    + apply Hready. now right.
Qed.

Lemma fold_step_effect_perm o l l' :
  Permutation l l' ->
  forall d, fold_left (fun t st => step_effect o st t) l d
            = fold_left (fun t st => step_effect o st t) l' d.
Proof.
  induction 1 as [|x l l' _ IH|x y l|l l' l'' _ IH1 _ IH2]; intros d; simpl.
  - reflexivity.
  - apply IH.
  - now rewrite step_effect_comm.
  - now rewrite IH1.
Qed.

Lemma configure_as_run_steps o s : configure o s = run_steps o source_order s.
Proof.
  unfold configure, run_steps, source_order. simpl. unfold bind.
  destruct (opengl_step o s) as [s1 [[]|e1]]; [|reflexivity].
  destruct (sdl_step o s1) as [s2 [[]|e2]]; [|reflexivity].
  now destruct (glfw_step o s2) as [s3 [[]|e3]].
Qed.

(** X9. On any table where [configure] returns normally, its three
    [if] statements can be run in any order: every order returns
    normally and leaves the state [configure] leaves. *)
Theorem steps_commute_on_any_table (o : Options) (s : state) (l : list step) :
  Permutation l source_order ->
  completes (configure o s) ->
  run_steps o l s = configure o s.
Proof.
  destruct s as [d c]. unfold completes. intros Hperm Hret.
  destruct (configure_run o d c) as [d' [r [Hrun [Hr _]]]].
  rewrite Hrun in Hret. simpl in Hret. apply Hr in Hret.
  destruct Hret as [Hsdl Hglfw].
  assert (Hready : forall st, step_ready o st d).
  { intros [| |]; simpl; auto. }
  assert (Hnd : NoDup source_order).
  { unfold source_order. repeat constructor; simpl; intuition discriminate. }
  rewrite configure_as_run_steps.
  rewrite (run_steps_returns o source_order d c Hnd) by auto.
  rewrite (run_steps_returns o l d c) by
    (auto; apply (Permutation_NoDup (Permutation_sym Hperm) Hnd)).
  now rewrite (fold_step_effect_perm o l source_order Hperm).
Qed.

Lemma steps_commute_on_any_table_witness :
  let s := mkState [("glfw", "glfw/3.3.8"); ("fmt", "fmt/10.2.1")] [] in
  let o := mkOptions "yes" "system" "conan" in
  run_steps o [RemoveGlfw; InsertOpengl; RemoveSdl] s = configure o s.
Proof.
  apply (steps_commute_on_any_table
           (mkOptions "yes" "system" "conan")
           (mkState [("glfw", "glfw/3.3.8"); ("fmt", "fmt/10.2.1")] [])).
  - unfold source_order.
    apply perm_trans with [InsertOpengl; RemoveGlfw; RemoveSdl].
    + apply perm_swap.
    + apply perm_skip. apply perm_swap.
  - reflexivity.
Defined.

(** X10. Where [configure] raises, the order does matter: on a table
    with neither "sdl" nor "glfw", with both sources "system",
    [configure] sets the sanity check (if asked for) and raises
    [KeyError] for "sdl", while popping "glfw" first raises [KeyError]
    for "glfw" and leaves the table as it was. *)
Theorem steps_order_shows_when_raising (o : Options) (s : state) :
  sdl_source o = "system" ->
  opengl_source o = "system" ->
  mem "sdl" (packages s) = false ->
  mem "glfw" (packages s) = false ->
  configure o s
  = (mkState (step_effect o InsertOpengl (packages s)) (calls s),
     Raised (KeyError "sdl"))
  /\ run_steps o [RemoveGlfw; RemoveSdl; InsertOpengl] s
     = (s, Raised (KeyError "glfw")).
Proof.
  destruct s as [d c]. cbn [packages calls]. intros Hsdl Hgl Msdl Mglfw.
  split.
  - rewrite configure_spec. cbv zeta. rewrite Hsdl, Msdl. reflexivity.
  - unfold run_steps. simpl. unfold bind, glfw_step, bind.
    rewrite Hgl. change ("system" =? "system") with true. cbv beta iota.
    rewrite packages_pop_spec. apply mem_false in Mglfw. now rewrite Mglfw.
Qed.

Lemma steps_order_shows_when_raising_witness :
  let s := mkState [("fmt", "fmt/10.2.1")] [] in
  let o := mkOptions "yes" "system" "system" in
  configure o s
  = (mkState (step_effect o InsertOpengl (packages s)) (calls s),
     Raised (KeyError "sdl"))
  /\ run_steps o [RemoveGlfw; RemoveSdl; InsertOpengl] s
     = (s, Raised (KeyError "glfw")).
Proof.
  apply (steps_order_shows_when_raising
           (mkOptions "yes" "system" "system")
           (mkState [("fmt", "fmt/10.2.1")] [])); reflexivity.
Defined.

Lemma requirements_run d c :
  requirements (mkState d c)
  = (mkState d (c ++ map requires (values d)), Returned tt).
Proof. unfold requirements. simpl. apply for_each_requires. Qed.

(** X11. [configure] followed by [requirements], on a duplicate-free
    table where [configure] returns: Conan is asked, in table order, for
    exactly the references of the table without the popped keys, the
    sanity check included when it is asked for. *)
Theorem configure_then_requirements (o : Options) (s : state) :
  wf (packages s) ->
  completes (configure o s) ->
  (configure o ;; requirements) s
  = (mkState (resolved_table o (packages s))
             (calls s
              ++ map requires (values (resolved_table o (packages s)))),
     Returned tt).
Proof.
  destruct s as [d c]. unfold completes. cbn [packages calls].
  intros Hwf Hret. unfold bind.
  pose proof (configure_returned_table o d c Hwf Hret) as Htable.
  destruct (configure o (mkState d c)) as [s' r].
  simpl in Hret, Htable. subst r s'. apply requirements_run.
Qed.

Lemma configure_then_requirements_witness :
  (configure (mkOptions "no" "system" "system") ;; requirements) initial
  = (mkState (resolved_table (mkOptions "no" "system" "system") conan_packages)
             (map requires
                  (values (resolved_table (mkOptions "no" "system" "system")
                                          conan_packages))),
     Returned tt).
Proof.
  apply (configure_then_requirements
           (mkOptions "no" "system" "system") initial).
  - apply wf_conan_packages.
  - reflexivity.
Defined.

(** X12. From the table of the class body, whatever strings the
    options hold, [configure] then [requirements] always asks Conan for
    the six packages no option governs, never for "sdl" or "sdl_ttf"
    when sdl_source is "system", never for "glfw" when opengl_source is
    "system", and for the sanity check exactly when
    check_opengl_compatibility is "yes". *)
Theorem requirements_follow_options (o : Options) :
  let asked := calls (fst ((configure o ;; requirements) initial)) in
  incl (map requires ["fmt/10.2.1"; "mp-units/2.2.1"; "scope-lite/0.2.0";
                      "structopt/0.1.3"; "imgui/1.90.5"; "implot/0.16"])
       asked
  /\ (In (requires "sdl/2.28.3") asked <-> sdl_source o <> "system")
  /\ (In (requires "sdl_ttf/2.22.0") asked <-> sdl_source o <> "system")
  /\ (In (requires "glfw/3.3.8") asked <-> opengl_source o <> "system")
  /\ (In (requires opengl_sanity_check) asked
      <-> check_opengl_compatibility o = "yes").
Proof.
  destruct o as [c g s]. cbv zeta. unfold bind, configure, bind.
  unfold opengl_step, sdl_step, glfw_step, incl.
  cbn [check_opengl_compatibility opengl_source sdl_source].
  destruct (String.eqb_spec c "yes");
    destruct (String.eqb_spec g "system");
    destruct (String.eqb_spec s "system");
    simpl; intuition (try discriminate; try congruence).
Qed.

(** X14. The size of the table where [configure] returns: one entry
    more if the sanity check was asked for and "opengl" was not yet a
    key, two fewer if sdl_source is "system", one fewer if
    opengl_source is "system". *)
Theorem configure_length (o : Options) (s : state) :
  completes (configure o s) ->
  length (packages (fst (configure o s)))
  + (if sdl_source o =? "system" then 2 else 0)
  + (if opengl_source o =? "system" then 1 else 0)
  = length (packages s)
    + (if check_opengl_compatibility o =? "yes"
       then if mem "opengl" (packages s) then 0 else 1
       else 0).
Proof.
  destruct s as [d c]. unfold completes. cbn [packages].
  assert (Hlen : length (step_effect o InsertOpengl d)
                 = length d
                   + (if check_opengl_compatibility o =? "yes"
                      then if mem "opengl" d then 0 else 1 else 0)).
  { simpl. destruct (_ =? "yes"); [apply length_setitem|lia]. }
  assert (Hmem : forall k, k <> "opengl" ->
                   mem k (step_effect o InsertOpengl d) = mem k d).
  { intros k Hk. simpl. destruct (_ =? "yes"); [|reflexivity].
    now apply mem_setitem_other. }
  rewrite <- Hlen. clear Hlen.
  configure_cases o d; try discriminate; intros _.
  all: repeat match goal with
         | |- context [delete ?k ?t] =>
             lazymatch goal with
             | _ : S (length (delete k t)) = length t |- _ => fail
             | _ => idtac
             end;
             assert (S (length (delete k t)) = length t)
               by (apply length_delete;
                   rewrite ?mem_delete_other by discriminate;
                   rewrite Hmem by discriminate; assumption)
         end; lia.
Qed.

Lemma configure_length_witness :
  length (packages (fst (configure (mkOptions "yes" "system" "system")
                                   initial))) + 2 + 1
  = length (packages initial) + 1.
Proof.
  apply (configure_length (mkOptions "yes" "system" "system") initial).
  reflexivity.
Defined.

End AnyTable.
